(** * plentimon: the d10 dice-pool roller ([src/roller/roller.ts])

    A shallow embedding of the five exported functions of the roller
    ([d10], [countSuccesses], [rollDice], [reroll], [roll]) together with
    the lodash helpers they call, followed by the properties of the
    specification that concern them.

    The code is modelled as it runs, that is as the JavaScript the
    TypeScript compiler emits for it.  This matters at one place: line 86,
    [rerollArray.forEach(r: number => {], is not well-formed TypeScript (a
    typed parameter of an arrow function needs parentheses); the compiler
    reports it and emits [rerollArray.forEach(r, number => { ... })], where
    [r] is a free identifier.  Evaluating that argument throws a
    ReferenceError, so every call of [reroll] that passes the two checks
    before line 86 ends there.  The rest of [reroll] is embedded as written,
    behind that throw.

    Modelling choices.
    - JavaScript numbers are the integer-valued doubles, written as
      integers [Z].  An addition is rounded as IEEE 754 rounds it (to the
      nearest double, ties to the even mantissa): it is exact as long as
      the sum stays within 2^53 and rounds beyond.  NaN, the infinities
      and fractions are outside the model.
    - Every other scalar a caller may pass (undefined, null, booleans,
      strings) is kept, because the code tests [isNumber] and relies on
      truthiness ([compact], the [roll ? roll : -1] test of [d10]).
    - [Math.random] is an oracle: the k-th call to [sample] picks the
      index [src k] of its array.  The position in the oracle is threaded
      through every function that draws dice.
    - [reroll] is written as a recursion on freshly drawn dice, so it
      takes a fuel that bounds the depth of the cascade; [Diverge] is the
      outcome when the fuel runs out. *)

From Stdlib Require Import ZArith List Bool String Lia Permutation Arith.
Import ListNotations.
Open Scope Z_scope.

(** ** JavaScript values *)

Inductive jsval : Type :=
| JUndefined
| JNull
| JBool (b : bool)
| JNum (n : Z)
| JStr (s : string).

(** An argument that is either one scalar or an array of scalars
    ([number | number[]] in the JSDoc of the roller). *)
Inductive jsarg : Type :=
| Scalar (v : jsval)
| Arr (l : list jsval).

Definition jsval_eqb (a b : jsval) : bool :=
  match a, b with
  | JUndefined, JUndefined => true
  | JNull, JNull => true
  | JBool x, JBool y => Bool.eqb x y
  | JNum x, JNum y => x =? y
  | JStr x, JStr y => String.eqb x y
  | _, _ => false
  end.

(** Truthiness of a value, as used by [?:], [if] and [compact]. *)
Definition truthy (v : jsval) : bool :=
  match v with
  | JUndefined | JNull => false
  | JBool b => b
  | JNum n => negb (n =? 0)
  | JStr s => negb (String.eqb s EmptyString)
  end.

(** ** Numbers

    The unit in the last place of a non-negative integer read as a
    double: 1 up to 2^53, then 2, 4, ... as the 53-bit mantissa shifts. *)
Definition ulp (z : Z) : Z := 2 ^ Z.max 0 (Z.log2 z - 52).

(** The multiple of [u] nearest to [z], the even multiple on a tie. *)
Definition nearest (u z : Z) : Z :=
  let q := z / u in
  let r := z mod u in
  if 2 * r <? u then q * u
  else if u <? 2 * r then (q + 1) * u
  else if Z.even q then q * u
  else (q + 1) * u.

(** The double nearest to an integer. *)
Definition roundDouble (z : Z) : Z :=
  if z <? 0 then - nearest (ulp (- z)) (- z) else nearest (ulp z) z.

(** [x + y] on numbers. *)
Definition jsAdd (x y : Z) : Z := roundDouble (x + y).

(** [Number.MAX_SAFE_INTEGER] and lodash's [MAX_ARRAY_LENGTH]. *)
Definition MAX_SAFE_INTEGER : Z := 9007199254740991.
Definition MAX_ARRAY_LENGTH : Z := 4294967295.

(** ** Errors

    The code throws plain [Error]s told apart by their message; the
    specification sorts them into two kinds.  The ReferenceError of line 86
    is thrown by the language, not by the code, and is of neither kind. *)

Inductive error : Type :=
| EDiceNil            (* dice roll cannot return nil values! *)
| ERollRequired       (* roll is required (die or array of dice) *)
| ETargetNumber       (* targetNumber must be a number *)
| EDouble             (* double must be a number *)
| ENotANumber         (* One of the values in roll array is not a number *)
| EOutOfRange         (* One of the values in roll array out of 1-10 range *)
| ENumDice            (* numDice must be a positive number *)
| ERerollNotArray     (* reroll isn't an array *)
| ERerollNonNumber    (* reroll contains non-number values *)
| ERerollAllFaces     (* reroll contains 1-10 *)
| EReference.         (* ReferenceError: r is not defined *)

Inductive error_kind : Type :=
| InvalidArgument
| InvariantViolation
| LanguageError.

Definition kind_of (e : error) : error_kind :=
  match e with
  | EDiceNil => InvariantViolation
  | EReference => LanguageError
  | _ => InvalidArgument
  end.

(** ** Results and the dice monad *)

Inductive res (A : Type) : Type :=
| Ok (a : A)
| Err (e : error).
Arguments Ok {A} a.
Arguments Err {A} e.

Inductive outcome (A : Type) : Type :=
| Ret (a : A)
| Throw (e : error)
| Diverge.
Arguments Ret {A} a.
Arguments Throw {A} e.
Arguments Diverge {A}.

(** A computation reads the oracle from a position and leaves it at a
    later one. *)
Definition M (A : Type) : Type := nat -> outcome A * nat.

Definition ret {A} (a : A) : M A := fun c => (Ret a, c).
Definition throw {A} (e : error) : M A := fun c => (Throw e, c).
Definition diverge {A} : M A := fun c => (Diverge, c).

Definition bind {A B} (m : M A) (k : A -> M B) : M B :=
  fun c =>
    match m c with
    | (Ret a, c') => k a c'
    | (Throw e, c') => (Throw e, c')
    | (Diverge, c') => (Diverge, c')
    end.

Definition lift {A} (r : res A) : M A :=
  match r with
  | Ok a => ret a
  | Err e => throw e
  end.

Notation "x <- m ;; k" := (bind m (fun x => k))
  (at level 61, m at next level, right associativity).

(** ** lodash *)

Definition isNumber (v : jsval) : bool :=
  match v with JNum _ => true | _ => false end.

Definition isNumberArg (a : jsarg) : bool :=
  match a with Scalar v => isNumber v | Arr _ => false end.

Definition isArray (a : jsarg) : bool :=
  match a with Arr _ => true | Scalar _ => false end.

(** [roll === undefined]. *)
Definition isUndefinedArg (a : jsarg) : bool :=
  match a with Scalar JUndefined => true | _ => false end.

Definition isEmpty {A} (l : list A) : bool :=
  match l with [] => true | _ => false end.

Definition compact (l : list jsval) : list jsval := filter truthy l.

Definition every (l : list bool) : bool := forallb (fun b => b) l.

(** [includes] and [Set.prototype.has] compare with SameValueZero, which
    on these scalars is equality. *)
Definition includes (l : list jsval) (v : jsval) : bool :=
  existsb (jsval_eqb v) l.

(** [range(start, end)]: the integers from [start] up to, but not
    including, [end] (the ascending case, the only one the roller uses). *)
Definition range (start stop : Z) : list Z :=
  map (fun i => start + Z.of_nat i) (seq 0 (Z.to_nat (stop - start))).

(** [sample(array)] returns the element at the drawn index, [undefined]
    ([None]) when there is none. *)
Definition sample (array : list Z) (index : nat) : option Z :=
  nth_error array index.

(** [reduce(array, iteratee, accumulator)] with an iteratee that may
    throw. *)
Fixpoint reduce {A B} (l : list A) (f : B -> A -> res B) (acc : B)
  : res B :=
  match l with
  | [] => Ok acc
  | r :: rest =>
      match f acc r with
      | Ok acc' => reduce rest f acc'
      | Err e => Err e
      end
  end.

(** [baseTimes(n, iteratee)]: [n] calls of an iteratee that draws dice,
    the results in call order. *)
Fixpoint baseTimes {A} (n : nat) (f : M A) : M (list A) :=
  match n with
  | O => ret []
  | S k => x <- f ;; xs <- baseTimes k f ;; ret (x :: xs)
  end.

(** [times(n, iteratee)] for an iteratee that draws dice.  lodash returns
    the empty array for a count below 1 or above [MAX_SAFE_INTEGER]; it
    keeps the results of the first [MAX_ARRAY_LENGTH] calls at most, and
    goes on calling the iteratee for the indices from [MAX_ARRAY_LENGTH + 1]
    up to [n - MAX_ARRAY_LENGTH], dropping what they return. *)
Definition times {A} (n : Z) (iteratee : M A) : M (list A) :=
  if (n <? 1) || (n >? MAX_SAFE_INTEGER) then ret []
  else
    result <- baseTimes (Z.to_nat (Z.min n MAX_ARRAY_LENGTH)) iteratee ;;
    dropped <- baseTimes
                 (Z.to_nat (n - MAX_ARRAY_LENGTH - (MAX_ARRAY_LENGTH + 1)))
                 iteratee ;;
    ret result.

(** [times(n, iteratee)] for a pure iteratee of the index. *)
Definition timesPure {A} (n : Z) (f : Z -> A) : list A :=
  if (n <? 1) || (n >? MAX_SAFE_INTEGER) then []
  else map (fun i => f (Z.of_nat i))
         (seq 0 (Z.to_nat (Z.min n MAX_ARRAY_LENGTH))).

(** [map(array, iteratee)] for an iteratee that draws dice, left to
    right. *)
Fixpoint mapM {A B} (f : A -> M B) (l : list A) : M (list B) :=
  match l with
  | [] => ret []
  | a :: rest => b <- f a ;; bs <- mapM f rest ;; ret (b :: bs)
  end.

(** ** The roller *)

Record countConfig : Type := {
  cc_targetNumber : jsval;
  cc_double : jsval;
  cc_autosuccesses : option Z
}.

Record rerollConfig : Type := {
  rr_rerollArray : jsarg;
  rr_append : option bool;
  rr_cascade : option bool
}.

Record rollConfig : Type := {
  rc_targetNumber : jsval;
  rc_double : jsval;
  rc_rerollArray : jsarg;
  rc_cascade : option bool;
  rc_autosuccesses : option Z
}.

Record RollResult : Type := {
  result : list jsval;
  diceRolled : nat;
  successes : Z;
  numDice : jsval;
  botch : bool
}.

(** A destructuring default applies when the field is [undefined]. *)
Definition orDefault (v d : jsval) : jsval :=
  match v with JUndefined => d | _ => v end.

Definition orDefaultArg (a d : jsarg) : jsarg :=
  match a with Scalar JUndefined => d | _ => a end.

Definition orElse {A} (o : option A) (d : A) : A :=
  match o with Some a => a | None => d end.

Definition toArray (roll : jsarg) : list jsval :=
  match roll with Arr l => l | Scalar v => [v] end.

(** [countSuccesses(roll, { targetNumber = 7, double = 10,
    autosuccesses = 0 })].  The two [isNumber] tests on the thresholds
    are the first two branches of the match on them. *)
Definition countSuccesses (roll : jsarg) (cfg : countConfig) : res Z :=
  let targetNumber := orDefault (cc_targetNumber cfg) (JNum 7) in
  let double := orDefault (cc_double cfg) (JNum 10) in
  let autosuccesses := orElse (cc_autosuccesses cfg) 0 in
  if isUndefinedArg roll || (negb (isNumberArg roll) && negb (isArray roll))
  then Err ERollRequired
  else
    match targetNumber, double with
    | JNum targetNumber, JNum double =>
        reduce (toArray roll)
          (fun acc r =>
             match r with
             | JNum r =>
                 if (r <=? 0) || (r >? 10) then Err EOutOfRange
                 else Ok (jsAdd acc (if r >=? targetNumber
                                     then (if r >=? double then 2 else 1)
                                     else 0))
             | _ => Err ENotANumber
             end)
          autosuccesses
    | JNum _, _ => Err EDouble
    | _, _ => Err ETargetNumber
    end.

(** The object [{}] that stands in for a missing [config]. *)
Definition emptyConfig : rollConfig :=
  {| rc_targetNumber := JUndefined; rc_double := JUndefined;
     rc_rerollArray := Scalar JUndefined; rc_cascade := None;
     rc_autosuccesses := None |}.

(** Line 86 as it runs: [rerollArray.forEach(r, number => { ... })].  The
    first argument is the free identifier [r]; evaluating it throws a
    ReferenceError before [forEach] is entered, whatever the array holds,
    and the callback that tests [isNumber] is never called. *)
Definition forEachLine86 (rerollArray : list jsval) : M unit :=
  throw EReference.

Section Roller.

(** The oracle behind [sample]. *)
Variable src : nat -> nat.

Definition d10 : M Z := fun c =>
  let roll := sample (range 1 10) (src c) in
  let result :=
    match roll with
    | Some r => if truthy (JNum r) then r else -1
    | None => -1
    end in
  if result =? -1 then (Throw EDiceNil, S c) else (Ret result, S c).

Definition rollDice (numDice : jsval) : M (list Z) :=
  match numDice with
  | JNum n => if n <? 0 then throw ENumDice else times n d10
  | _ => throw ENumDice
  end.

Fixpoint reroll (fuel : nat) (roll : jsarg) (cfg : rerollConfig)
  : M (list jsval) :=
  let append := orElse (rr_append cfg) true in
  let cascade := orElse (rr_cascade cfg) true in
  if negb (isNumberArg roll) && negb (isArray roll)
  then throw ERollRequired
  else
    match rr_rerollArray cfg with
    | Scalar _ => throw ERerollNotArray
    | Arr rerollArray =>
        checked <- forEachLine86 rerollArray ;;
        if every (timesPure 10
                    (fun i => includes rerollArray (JNum (jsAdd i 1))))
        then throw ERerollAllFaces
        else
          let rollArray := compact (toArray roll) in
          if isEmpty rollArray then ret []
          else
            rerolls <- mapM (fun r =>
                               if includes rerollArray r
                               then (x <- d10 ;; ret (JNum x))
                               else ret (JBool false)) rollArray ;;
            rerolls' <- (if cascade
                         then match fuel with
                              | O => diverge
                              | S fuel' =>
                                  reroll fuel' (Arr rerolls)
                                    {| rr_rerollArray := Arr rerollArray;
                                       rr_append := Some true;
                                       rr_cascade := None |}
                              end
                         else ret rerolls) ;;
            ret (compact ((if append then rollArray else []) ++ rerolls'))
    end.

Definition roll (fuel : nat) (numDice : jsval) (config : option rollConfig)
  : M RollResult :=
  let cfg := orElse config emptyConfig in
  let targetNumber := rc_targetNumber cfg in
  let double := orDefault (rc_double cfg) (JNum 10) in
  let rerollArray := orDefaultArg (rc_rerollArray cfg) (Arr []) in
  let cascade := orElse (rc_cascade cfg) true in
  let autosuccesses := orElse (rc_autosuccesses cfg) 0 in
  theRoll <- rollDice numDice ;;
  result <- reroll fuel (Arr (map JNum theRoll))
              {| rr_rerollArray := rerollArray; rr_append := Some true;
                 rr_cascade := Some cascade |} ;;
  successes <- lift (countSuccesses (Arr (map JNum theRoll))
                       {| cc_targetNumber := targetNumber;
                          cc_double := double;
                          cc_autosuccesses := Some autosuccesses |}) ;;
  ret {| result := result; diceRolled := List.length result;
         successes := successes; numDice := numDice;
         botch := (successes =? 0) && includes result (JNum 1) |}.

End Roller.

(** ** Vocabulary of the specification *)

(** A die face the success counter accepts: a number in (0, 10]. *)
Definition valid_face (v : jsval) : Prop :=
  exists n, v = JNum n /\ 0 < n <= 10.

(** An element the success counter refuses: not a number, or a number
    that is zero, negative or above ten. *)
Definition bad_face (v : jsval) : bool :=
  match v with
  | JNum n => (n <=? 0) || (n >? 10)
  | _ => true
  end.

(** What one face adds to the total, in the words of the specification,
    the cases read in order: nothing below the target number, one from the
    target number up to the double threshold, two from the double
    threshold on. *)
Definition contribution (targetNumber double r : Z) : Z :=
  if r <? targetNumber then 0
  else if r <? double then 1
  else 2.

Definition sumZ (l : list Z) : Z := fold_right Z.add 0 l.

(** Autosuccesses and a number of dice for which every partial total is an
    exact double: the autosuccesses are at least -2^53 and, with two per
    die added, at most 2^53. *)
Definition safeTotal (autosuccesses : Z) (dice : nat) : Prop :=
  - 9007199254740992 <= autosuccesses /\
  autosuccesses + 2 * Z.of_nat dice <= 9007199254740992.

(** The iteratee of the fold, for numeric thresholds. *)
Definition tally (targetNumber double : Z) (acc : Z) (r : jsval) : res Z :=
  match r with
  | JNum r =>
      if (r <=? 0) || (r >? 10) then Err EOutOfRange
      else Ok (jsAdd acc (if r >=? targetNumber
                          then (if r >=? double then 2 else 1)
                          else 0))
  | _ => Err ENotANumber
  end.


(** The error [reroll] ends with. *)
Definition rerollError (roll : jsarg) (rerollArray : jsarg) : error :=
  if negb (isNumberArg roll) && negb (isArray roll) then ERollRequired
  else match rerollArray with
       | Scalar _ => ERerollNotArray
       | Arr _ => EReference
       end.

(** The reroll array [roll] hands to [reroll]. *)
Definition rerollArrayOf (config : option rollConfig) : jsarg :=
  orDefaultArg (rc_rerollArray (orElse config emptyConfig)) (Arr []).

(** A dice count [rollDice] refuses: not a number, or a negative one. *)
Definition badNumDice (v : jsval) : bool :=
  match v with
  | JNum n => n <? 0
  | _ => true
  end.

(** A success-counting configuration with its autosuccesses replaced. *)
Definition withAutosuccesses (cfg : countConfig) (a : Z) : countConfig :=
  {| cc_targetNumber := cc_targetNumber cfg; cc_double := cc_double cfg;
     cc_autosuccesses := Some a |}.

(** The faces of [n] dice drawn from position [c]. *)
Definition poolFaces (src : nat -> nat) (c n : nat) : list Z :=
  map (fun k => Z.of_nat (src k) + 1) (seq c n).

(** The default thresholds with 2^53 autosuccesses. *)
Definition hugeAutosuccesses : countConfig :=
  {| cc_targetNumber := JNum 7; cc_double := JNum 10;
     cc_autosuccesses := Some 9007199254740992 |}.

(** Oracles used to run the roller on concrete draws. *)
Definition constSrc (i : nat) : nat -> nat := fun _ => i.
Definition listSrc (l : list nat) : nat -> nat := fun k => nth k l 0%nat.

(** * Properties *)

(** ** The die *)

Lemma range_1_10 : range 1 10 = [1; 2; 3; 4; 5; 6; 7; 8; 9].
Proof. reflexivity. Qed.

(** [d10] as a function of the drawn index: indices 0..8 give the faces
    1..9, any other index makes [sample] return [undefined]. *)
Lemma d10_eq (src : nat -> nat) (c : nat) :
  d10 src c =
  if (src c <? 9)%nat then (Ret (Z.of_nat (src c) + 1), S c)
  else (Throw EDiceNil, S c).
Proof.
  unfold d10. rewrite range_1_10. unfold sample.
  destruct (src c) as [|[|[|[|[|[|[|[|[|n]]]]]]]]]; try reflexivity.
  simpl nth_error. destruct n; reflexivity.
Qed.

(** C1 (as the code has it).  The faces [d10] can return are exactly
    1..9: each of them is returned for some draw, and whatever the draw,
    [d10] either returns a face between 1 and 9 or throws.  The face 10 is
    never produced, because [range(1, 10)] stops at 9. *)
Theorem d10_faces_one_to_nine :
  (forall f, 1 <= f <= 9 ->
     exists i, d10 (constSrc i) 0%nat = (Ret f, 1%nat)) /\
  (forall src c,
     d10 src c = (Throw EDiceNil, S c) \/
     exists f, d10 src c = (Ret f, S c) /\ 1 <= f <= 9) /\
  (forall src c c', d10 src c <> (Ret 10, c')).
Proof.
  split; [| split].
  - intros f Hf. exists (Z.to_nat (f - 1)). rewrite d10_eq. unfold constSrc.
    assert (H : (Z.to_nat (f - 1) <? 9)%nat = true)
      by (apply Nat.ltb_lt; lia).
    rewrite H. repeat f_equal. lia.
  - intros src c. rewrite d10_eq.
    destruct (Nat.ltb_spec (src c) 9) as [H | H].
    + right. eexists. split; [reflexivity | lia].
    + left. reflexivity.
  - intros src c c'. rewrite d10_eq.
    destruct (Nat.ltb_spec (src c) 9) as [H | H]; [| discriminate].
    intros E. injection E as E _. lia.
Qed.

(** C10.  Whenever the drawn index lies inside the sampled range, [d10]
    returns a face and does not throw: every element of the range is a
    non-zero number, so the nil test never fires. *)
Theorem d10_never_nil (src : nat -> nat) (c : nat) :
  (src c < List.length (range 1 10))%nat ->
  exists f, d10 src c = (Ret f, S c) /\ In f (range 1 10).
Proof.
  intros H. rewrite d10_eq. rewrite range_1_10 in *. simpl List.length in H.
  apply Nat.ltb_lt in H. rewrite H. eexists. split; [reflexivity |].
  apply Nat.ltb_lt in H.
  destruct (src c) as [|[|[|[|[|[|[|[|[|n]]]]]]]]]; simpl; auto 10; lia.
Qed.

(** The draw of index 4, which is the face 5. *)
Lemma d10_never_nil_witness :
  (constSrc 4 0 < List.length (range 1 10))%nat /\
  exists f, d10 (constSrc 4) 0%nat = (Ret f, 1%nat) /\ In f (range 1 10).
Proof.
  split; [vm_compute; lia | apply (d10_never_nil (constSrc 4) 0%nat); vm_compute; lia].
Defined.

(** ** Rounding *)

Lemma ulp_pos (z : Z) : 0 < ulp z.
Proof. unfold ulp. apply Z.pow_pos_nonneg; lia. Qed.

Lemma nearest_between (u z : Z) :
  0 < u -> (z / u) * u <= nearest u z <= (z / u + 1) * u.
Proof.
  intros Hu. unfold nearest.
  destruct (2 * (z mod u) <? u); [nia |].
  destruct (u <? 2 * (z mod u)); [nia |].
  destruct (Z.even (z / u)); nia.
Qed.

Lemma nearest_mono (u x y : Z) :
  0 < u -> x <= y -> nearest u x <= nearest u y.
Proof.
  intros Hu Hxy.
  pose proof (Z.div_le_mono x y u Hu Hxy) as Hq.
  destruct (Z.eq_dec (x / u) (y / u)) as [E | NE].
  - assert (Hr : x mod u <= y mod u).
    { rewrite !Z.mod_eq by lia. rewrite E. lia. }
    unfold nearest. rewrite E.
    destruct (Z.ltb_spec (2 * (x mod u)) u), (Z.ltb_spec (2 * (y mod u)) u);
      try lia;
      destruct (Z.ltb_spec u (2 * (x mod u))), (Z.ltb_spec u (2 * (y mod u)));
      try lia; destruct (Z.even (y / u)); nia.
  - pose proof (nearest_between u x Hu). pose proof (nearest_between u y Hu).
    nia.
Qed.

Lemma nearest_multiple (u z : Z) : 0 < u -> z mod u = 0 -> nearest u z = z.
Proof.
  intros Hu Hz. unfold nearest. rewrite Hz.
  destruct (Z.ltb_spec (2 * 0) u); [| lia].
  pose proof (Z.div_mod z u). lia.
Qed.

Lemma below_next_binade (x : Z) : 0 <= x -> x < 2 ^ 53 * ulp x.
Proof.
  intros Hx. unfold ulp. rewrite <- Z.pow_add_r by lia.
  destruct (Z.eq_dec x 0) as [-> | Hne].
  - apply Z.pow_pos_nonneg; lia.
  - destruct (Z.log2_spec x) as [_ Hlt]; [lia |].
    eapply Z.lt_le_trans; [exact Hlt |].
    apply Z.pow_le_mono_r; lia.
Qed.

Lemma round_nonneg_le (x : Z) : 0 <= x -> nearest (ulp x) x <= 2 ^ 53 * ulp x.
Proof.
  intros Hx. pose proof (ulp_pos x) as Hu.
  pose proof (nearest_between (ulp x) x Hu) as [_ H].
  pose proof (below_next_binade x Hx) as Hlt.
  assert (x / ulp x < 2 ^ 53) by (apply Z.div_lt_upper_bound; lia).
  nia.
Qed.

Lemma round_nonneg_mono (x y : Z) :
  0 <= x -> x <= y -> nearest (ulp x) x <= nearest (ulp y) y.
Proof.
  intros Hx Hxy.
  destruct (Z.eq_dec x 0) as [-> | Hx0].
  { pose proof (nearest_between (ulp y) y (ulp_pos y)) as [H _].
    assert (0 <= y / ulp y) by (apply Z.div_pos; [lia | apply ulp_pos]).
    pose proof (ulp_pos y).
    replace (nearest (ulp 0) 0) with 0 by reflexivity. nia. }
  pose proof (Z.log2_le_mono x y Hxy) as Hlog.
  destruct (Z.eq_dec (Z.max 0 (Z.log2 x - 52)) (Z.max 0 (Z.log2 y - 52)))
    as [E | NE].
  - unfold ulp. rewrite E. apply nearest_mono; [| exact Hxy].
    apply Z.pow_pos_nonneg; lia.
  - assert (Hey : Z.max 0 (Z.log2 y - 52) = Z.log2 y - 52) by lia.
    assert (Hex : Z.max 0 (Z.log2 x - 52) + 1 <= Z.log2 y - 52) by lia.
    pose proof (round_nonneg_le x Hx) as Hup.
    pose proof (nearest_between (ulp y) y (ulp_pos y)) as [Hlow _].
    assert (Hy : 2 ^ 52 * ulp y <= y).
    { unfold ulp. rewrite Hey, <- Z.pow_add_r by lia.
      replace (52 + (Z.log2 y - 52)) with (Z.log2 y) by lia.
      apply Z.log2_spec. lia. }
    assert (Hqy : 2 ^ 52 <= y / ulp y).
    { apply Z.div_le_lower_bound; [apply ulp_pos | lia]. }
    assert (Hu : 2 * ulp x <= ulp y).
    { unfold ulp. rewrite Hey.
      rewrite <- (Z.pow_1_r 2) at 1. rewrite <- Z.pow_add_r by lia.
      apply Z.pow_le_mono_r; lia. }
    pose proof (ulp_pos x). pose proof (ulp_pos y).
    change (2 ^ 53) with (2 * 2 ^ 52) in Hup.
    assert (0 < 2 ^ 52) by (apply Z.pow_pos_nonneg; lia).
    nia.
Qed.

Lemma round_nonneg_nonneg (x : Z) : 0 <= x -> 0 <= nearest (ulp x) x.
Proof.
  intros Hx. pose proof (ulp_pos x) as Hu.
  pose proof (nearest_between (ulp x) x Hu) as [H _].
  assert (0 <= x / ulp x) by (apply Z.div_pos; lia). nia.
Qed.

(** Rounding is monotone. *)
Lemma roundDouble_mono (x y : Z) : x <= y -> roundDouble x <= roundDouble y.
Proof.
  intros Hxy. unfold roundDouble.
  destruct (Z.ltb_spec x 0), (Z.ltb_spec y 0); try lia.
  - assert (nearest (ulp (- y)) (- y) <= nearest (ulp (- x)) (- x))
      by (apply round_nonneg_mono; lia).
    lia.
  - pose proof (round_nonneg_nonneg (- x)). pose proof (round_nonneg_nonneg y).
    lia.
  - apply round_nonneg_mono; lia.
Qed.

Lemma round_nonneg_exact (z : Z) :
  0 <= z <= 2 ^ 53 -> nearest (ulp z) z = z.
Proof.
  intros Hz. destruct (Z.eq_dec z (2 ^ 53)) as [-> | Hne]; [reflexivity |].
  destruct (Z.eq_dec z 0) as [-> | Hz0]; [reflexivity |].
  assert (Hlog : Z.log2 z < 53) by (apply Z.log2_lt_pow2; lia).
  unfold ulp. replace (Z.max 0 (Z.log2 z - 52)) with 0 by lia.
  apply nearest_multiple; [reflexivity | apply Z.mod_1_r].
Qed.

(** Within 2^53 of zero every integer is a double. *)
Lemma roundDouble_exact (z : Z) :
  - 9007199254740992 <= z <= 9007199254740992 -> roundDouble z = z.
Proof.
  change 9007199254740992 with (2 ^ 53).
  intros Hz. unfold roundDouble. destruct (Z.ltb_spec z 0).
  - rewrite round_nonneg_exact; lia.
  - apply round_nonneg_exact. lia.
Qed.

Lemma jsAdd_exact (x y : Z) :
  - 9007199254740992 <= x + y <= 9007199254740992 -> jsAdd x y = x + y.
Proof. apply roundDouble_exact. Qed.

Lemma jsAdd_mono (x x' y y' : Z) :
  x <= x' -> y <= y' -> jsAdd x y <= jsAdd x' y'.
Proof. intros Hx Hy. apply roundDouble_mono. lia. Qed.

(** ** The success counter *)

Lemma countSuccesses_numeric (roll : list jsval) (tn dbl : Z) (a : option Z) :
  countSuccesses (Arr roll)
    {| cc_targetNumber := JNum tn; cc_double := JNum dbl;
       cc_autosuccesses := a |} =
  reduce roll (tally tn dbl) (orElse a 0).
Proof. reflexivity. Qed.

Lemma added_is_contribution (tn dbl r : Z) :
  (if r >=? tn then (if r >=? dbl then 2 else 1) else 0) =
  contribution tn dbl r.
Proof.
  unfold contribution.
  destruct (Z.geb_spec r tn), (Z.ltb_spec r tn); try lia;
    destruct (Z.geb_spec r dbl), (Z.ltb_spec r dbl); try lia; reflexivity.
Qed.

(** The three cases of the specification, one by one. *)
Lemma contribution_cases (tn dbl r : Z) :
  (r < tn -> contribution tn dbl r = 0) /\
  (tn <= r < dbl -> contribution tn dbl r = 1) /\
  (tn <= r -> dbl <= r -> contribution tn dbl r = 2).
Proof.
  unfold contribution.
  destruct (Z.ltb_spec r tn), (Z.ltb_spec r dbl); repeat split; intros; lia.
Qed.

Lemma contribution_range (tn dbl r : Z) : 0 <= contribution tn dbl r <= 2.
Proof.
  unfold contribution.
  destruct (r <? tn); [lia |]. destruct (r <? dbl); lia.
Qed.

Lemma contribution_antitone (tn tn' dbl dbl' r : Z) :
  tn <= tn' -> dbl <= dbl' ->
  contribution tn' dbl' r <= contribution tn dbl r.
Proof.
  intros Ht Hd. unfold contribution.
  destruct (Z.ltb_spec r tn'), (Z.ltb_spec r tn), (Z.ltb_spec r dbl'),
    (Z.ltb_spec r dbl); lia.
Qed.

(** What the iteratee does with a valid face. *)
Lemma tally_valid (tn dbl acc r : Z) :
  0 < r <= 10 ->
  tally tn dbl acc (JNum r) = Ok (jsAdd acc (contribution tn dbl r)).
Proof.
  intros Hr. cbn [tally].
  destruct (Z.leb_spec r 0); [lia |]. destruct (Z.gtb_spec r 10); [lia |].
  cbn [orb]. rewrite added_is_contribution. reflexivity.
Qed.

(** On valid faces the fold always returns a total. *)
Lemma reduce_faces_ok (tn dbl : Z) (faces : list Z) :
  Forall (fun r => 0 < r <= 10) faces ->
  forall acc, exists total,
    reduce (map JNum faces) (tally tn dbl) acc = Ok total.
Proof.
  induction 1 as [| r faces Hr _ IH]; intros acc; cbn [map reduce].
  - eauto.
  - rewrite (tally_valid _ _ _ _ Hr). apply IH.
Qed.

(** As long as every partial total is an exact double, the fold returns
    the accumulator plus the contributions of the faces. *)
Lemma reduce_faces (tn dbl : Z) (faces : list Z) :
  Forall (fun r => 0 < r <= 10) faces ->
  forall acc,
    safeTotal acc (List.length faces) ->
    reduce (map JNum faces) (tally tn dbl) acc =
    Ok (acc + sumZ (map (contribution tn dbl) faces)).
Proof.
  unfold safeTotal.
  induction 1 as [| r faces Hr _ IH]; intros acc Hs; cbn [map reduce].
  - simpl. f_equal. lia.
  - rewrite (tally_valid _ _ _ _ Hr).
    pose proof (contribution_range tn dbl r) as Hc.
    cbn [List.length] in Hs. rewrite jsAdd_exact by lia.
    rewrite IH by lia. unfold sumZ. cbn [fold_right]. f_equal. lia.
Qed.

Lemma valid_faces_numbers (l : list jsval) :
  Forall valid_face l ->
  exists faces, l = map JNum faces /\ Forall (fun r => 0 < r <= 10) faces.
Proof.
  induction 1 as [| v l [n [-> Hn]] _ [faces [-> Hf]]].
  - exists []. split; [reflexivity | constructor].
  - exists (n :: faces). split; [reflexivity | constructor; assumption].
Qed.

Lemma sumZ_perm (l l' : list Z) : Permutation l l' -> sumZ l = sumZ l'.
Proof.
  induction 1; simpl; lia.
Qed.

Lemma sumZ_double_below (tn dbl : Z) (faces : list Z) :
  dbl < tn ->
  sumZ (map (contribution tn dbl) faces) =
  2 * Z.of_nat (List.length (filter (fun r => tn <=? r) faces)).
Proof.
  intros Hlt. induction faces as [| r faces IH]; [reflexivity |].
  cbn [map sumZ fold_right filter]. fold (sumZ (map (contribution tn dbl) faces)).
  rewrite IH. unfold contribution.
  destruct (Z.leb_spec tn r), (Z.ltb_spec r tn); try lia.
  destruct (Z.ltb_spec r dbl); [lia |]. cbn [List.length]. lia.
Qed.

Lemma sum_contribution_range (tn dbl : Z) (faces : list Z) :
  0 <= sumZ (map (contribution tn dbl) faces) <=
  2 * Z.of_nat (List.length faces).
Proof.
  induction faces as [| r faces IH]; [simpl; lia |].
  cbn [map sumZ fold_right List.length].
  fold (sumZ (map (contribution tn dbl) faces)).
  pose proof (contribution_range tn dbl r). lia.
Qed.

(** C4, refuted as stated.  With 2^53 autosuccesses and one die showing 7
    the counter returns 2^53, not 2^53 + 1: the sum is not a double and is
    rounded to the even neighbour. *)
Lemma countSuccesses_sum_rounds :
  countSuccesses (Arr (map JNum [7])) hugeAutosuccesses =
  Ok 9007199254740992 /\
  9007199254740992 + sumZ (map (contribution 7 10) [7]) = 9007199254740993.
Proof. split; reflexivity. Qed.

(** C4, as the code has it.  On die faces in (0, 10] and numeric
    thresholds, when the autosuccesses are at least -2^53 and, with two per
    die added, at most 2^53, the counter returns [autosuccesses] plus, for
    each face, its [contribution]: 0 below the target number, 1 from the
    target number up to the double threshold, 2 from the double threshold
    on.  A double threshold below the target number is accepted, and then
    the total is [autosuccesses] plus two for every face that reaches the
    target number. *)
Theorem countSuccesses_sum (faces : list Z) (tn dbl auto : Z) :
  Forall (fun r => 0 < r <= 10) faces ->
  safeTotal auto (List.length faces) ->
  countSuccesses (Arr (map JNum faces))
    {| cc_targetNumber := JNum tn; cc_double := JNum dbl;
       cc_autosuccesses := Some auto |} =
  Ok (auto + sumZ (map (contribution tn dbl) faces)) /\
  (dbl < tn ->
   countSuccesses (Arr (map JNum faces))
     {| cc_targetNumber := JNum tn; cc_double := JNum dbl;
        cc_autosuccesses := Some auto |} =
   Ok (auto + 2 * Z.of_nat (List.length (filter (fun r => tn <=? r) faces)))).
Proof.
  intros Hf Hs. rewrite countSuccesses_numeric, (reduce_faces _ _ _ Hf _ Hs).
  split; [reflexivity |].
  intros Hlt. rewrite (sumZ_double_below _ _ _ Hlt). reflexivity.
Qed.

(** Six dice against target number 7 with the double threshold at 5 and
    one autosuccess: the four dice from 7 up score two each. *)
Lemma countSuccesses_sum_witness :
  Forall (fun r => 0 < r <= 10) [7; 8; 9; 10; 3; 5] /\
  safeTotal 1 (List.length [7; 8; 9; 10; 3; 5]) /\
  countSuccesses (Arr (map JNum [7; 8; 9; 10; 3; 5]))
    {| cc_targetNumber := JNum 7; cc_double := JNum 5;
       cc_autosuccesses := Some 1 |} = Ok 9.
Proof.
  assert (H : Forall (fun r => 0 < r <= 10) [7; 8; 9; 10; 3; 5])
    by (repeat constructor; lia).
  assert (Hs : safeTotal 1 (List.length [7; 8; 9; 10; 3; 5]))
    by (unfold safeTotal; simpl; lia).
  split; [exact H | split; [exact Hs |]].
  exact (proj1 (countSuccesses_sum [7; 8; 9; 10; 3; 5] 7 5 1 H Hs)).
Defined.

(** C5, refuted as stated.  With 2^53 autosuccesses the dice 7, 10 count
    to 2^53 + 2 and the same dice as 10, 7 to 2^53 + 4: each addition is
    rounded, so the order matters. *)
Lemma countSuccesses_order_matters :
  Forall valid_face [JNum 7; JNum 10] /\
  Permutation [JNum 7; JNum 10] [JNum 10; JNum 7] /\
  countSuccesses (Arr [JNum 7; JNum 10]) hugeAutosuccesses =
  Ok 9007199254740994 /\
  countSuccesses (Arr [JNum 10; JNum 7]) hugeAutosuccesses =
  Ok 9007199254740996.
Proof.
  split; [| split; [apply perm_swap | split; reflexivity]].
  repeat constructor; eexists; (split; [reflexivity | lia]).
Qed.

(** C5, as the code has it.  When the autosuccesses are at least -2^53
    and, with two per die added, at most 2^53, shuffling a sequence of
    valid die faces does not change what the counter returns, whatever the
    thresholds. *)
Theorem countSuccesses_perm (l l' : list jsval) (cfg : countConfig) :
  Forall valid_face l ->
  Permutation l l' ->
  safeTotal (orElse (cc_autosuccesses cfg) 0) (List.length l) ->
  countSuccesses (Arr l) cfg = countSuccesses (Arr l') cfg.
Proof.
  intros Hv Hp Hs.
  destruct (valid_faces_numbers l Hv) as [faces [-> Hf]].
  destruct (Permutation_map_inv JNum faces (Permutation_sym Hp))
    as [faces' [-> Hpf]].
  assert (Hf' : Forall (fun r => 0 < r <= 10) faces').
  { rewrite Forall_forall in *. intros x Hx. apply Hf.
    apply (Permutation_in x (Permutation_sym Hpf) Hx). }
  rewrite length_map in Hs.
  assert (Hs' : safeTotal (orElse (cc_autosuccesses cfg) 0)
                  (List.length faces'))
    by (rewrite <- (Permutation_length Hpf); exact Hs).
  destruct cfg as [t d a]. unfold countSuccesses.
  cbn [cc_targetNumber cc_double cc_autosuccesses isUndefinedArg isNumberArg
       isArray negb andb orb toArray] in *.
  destruct (orDefault t (JNum 7)); try reflexivity.
  destruct (orDefault d (JNum 10)); try reflexivity.
  change (reduce (map JNum faces) (tally n n0) (orElse a 0) =
          reduce (map JNum faces') (tally n n0) (orElse a 0)).
  rewrite (reduce_faces _ _ _ Hf _ Hs), (reduce_faces _ _ _ Hf' _ Hs').
  f_equal. f_equal. apply sumZ_perm. apply Permutation_map. exact Hpf.
Qed.

(** The dice 7, 10, 3 and the same dice as 3, 7, 10, under the default
    configuration. *)
Lemma countSuccesses_perm_witness :
  Forall valid_face [JNum 7; JNum 10; JNum 3] /\
  Permutation [JNum 7; JNum 10; JNum 3] [JNum 3; JNum 7; JNum 10] /\
  safeTotal 0 (List.length [JNum 7; JNum 10; JNum 3]) /\
  countSuccesses (Arr [JNum 7; JNum 10; JNum 3])
    {| cc_targetNumber := JUndefined; cc_double := JUndefined;
       cc_autosuccesses := None |} =
  countSuccesses (Arr [JNum 3; JNum 7; JNum 10])
    {| cc_targetNumber := JUndefined; cc_double := JUndefined;
       cc_autosuccesses := None |}.
Proof.
  assert (Hv : Forall valid_face [JNum 7; JNum 10; JNum 3]).
  { repeat constructor; eexists; (split; [reflexivity | lia]). }
  assert (Hp : Permutation [JNum 7; JNum 10; JNum 3]
                 [JNum 3; JNum 7; JNum 10]).
  { apply Permutation_sym.
    apply (Permutation_cons_app [JNum 7; JNum 10] [] (JNum 3)).
    rewrite app_nil_r. apply Permutation_refl. }
  assert (Hs : safeTotal 0 (List.length [JNum 7; JNum 10; JNum 3]))
    by (unfold safeTotal; simpl; lia).
  split; [exact Hv | split; [exact Hp | split; [exact Hs |]]].
  apply (countSuccesses_perm _ _
           {| cc_targetNumber := JUndefined; cc_double := JUndefined;
              cc_autosuccesses := None |} Hv Hp Hs).
Defined.

Lemma tally_bad (tn dbl acc : Z) (v : jsval) :
  bad_face v = true ->
  exists e, tally tn dbl acc v = Err e /\ (e = ENotANumber \/ e = EOutOfRange).
Proof.
  destruct v; simpl; intros H; try (eexists; split; [reflexivity | auto]).
  rewrite H. eexists; split; [reflexivity | auto].
Qed.

Lemma reduce_bad (tn dbl : Z) (l : list jsval) :
  existsb bad_face l = true ->
  forall acc,
  exists e, reduce l (tally tn dbl) acc = Err e /\
            (e = ENotANumber \/ e = EOutOfRange).
Proof.
  induction l as [| v l IH]; simpl; [discriminate |].
  intros H acc. destruct (bad_face v) eqn:Hv.
  - destruct (tally_bad tn dbl acc v Hv) as [e [-> He]]. eauto.
  - simpl in H. destruct (tally tn dbl acc v) as [acc' | e] eqn:Ht.
    + apply IH, H.
    + exists e. split; [reflexivity |].
      destruct v; simpl in Ht; try (injection Ht as <-; auto).
      destruct ((n <=? 0) || (n >? 10)); [injection Ht as <-; auto | discriminate].
Qed.

(** C7.  When some element of the array is not a number, or is a number
    that is zero, negative or above ten, the counter throws an
    InvalidArgument error and returns no total, whatever the
    configuration. *)
Theorem countSuccesses_rejects_bad_face (l : list jsval) (cfg : countConfig) :
  existsb bad_face l = true ->
  exists e, countSuccesses (Arr l) cfg = Err e /\
            kind_of e = InvalidArgument.
Proof.
  intros H. destruct cfg as [t d a]. unfold countSuccesses.
  cbn [cc_targetNumber cc_double cc_autosuccesses isUndefinedArg isNumberArg
       isArray negb andb orb toArray].
  destruct (orDefault t (JNum 7)) as [| | b | tn | s];
    try (eexists; split; reflexivity).
  destruct (orDefault d (JNum 10)) as [| | b | dbl | s];
    try (eexists; split; reflexivity).
  destruct (reduce_bad tn dbl l H (orElse a 0)) as [e [He Hk]].
  exists e. split; [exact He |]. destruct Hk as [-> | ->]; reflexivity.
Qed.

(** A zero among the dice. *)
Lemma countSuccesses_rejects_bad_face_witness :
  existsb bad_face [JNum 7; JNum 0; JNum 3] = true /\
  exists e,
    countSuccesses (Arr [JNum 7; JNum 0; JNum 3])
      {| cc_targetNumber := JNum 7; cc_double := JNum 10;
         cc_autosuccesses := Some 0 |} = Err e /\
    kind_of e = InvalidArgument.
Proof.
  split; [reflexivity |].
  apply (countSuccesses_rejects_bad_face [JNum 7; JNum 0; JNum 3]).
  reflexivity.
Defined.

(** X3.  On valid die faces and numeric thresholds, when the
    autosuccesses are at least -2^53 and, with two per die added, at most
    2^53, the total lies between [autosuccesses] and [autosuccesses] plus
    two per die. *)
Theorem countSuccesses_bounds (faces : list Z) (tn dbl auto : Z) :
  Forall (fun r => 0 < r <= 10) faces ->
  safeTotal auto (List.length faces) ->
  exists total,
    countSuccesses (Arr (map JNum faces))
      {| cc_targetNumber := JNum tn; cc_double := JNum dbl;
         cc_autosuccesses := Some auto |} = Ok total /\
    auto <= total <= auto + 2 * Z.of_nat (List.length faces).
Proof.
  intros Hf Hs. eexists. split.
  - rewrite countSuccesses_numeric. apply (reduce_faces _ _ _ Hf _ Hs).
  - pose proof (sum_contribution_range tn dbl faces). lia.
Qed.

(** Five dice against the default thresholds. *)
Lemma countSuccesses_bounds_witness :
  Forall (fun r => 0 < r <= 10) [7; 8; 9; 10; 3] /\
  safeTotal 0 (List.length [7; 8; 9; 10; 3]) /\
  exists total,
    countSuccesses (Arr (map JNum [7; 8; 9; 10; 3]))
      {| cc_targetNumber := JNum 7; cc_double := JNum 10;
         cc_autosuccesses := Some 0 |} = Ok total /\
    0 <= total <= 0 + 2 * Z.of_nat (List.length [7; 8; 9; 10; 3]).
Proof.
  assert (H : Forall (fun r => 0 < r <= 10) [7; 8; 9; 10; 3])
    by (repeat constructor; lia).
  assert (Hs : safeTotal 0 (List.length [7; 8; 9; 10; 3]))
    by (unfold safeTotal; simpl; lia).
  split; [exact H | split; [exact Hs |]].
  apply (countSuccesses_bounds [7; 8; 9; 10; 3] 7 10 0 H Hs).
Defined.

Lemma reduce_app {A B} (f : B -> A -> res B) (l l' : list A) (acc : B) :
  reduce (l ++ l') f acc =
  match reduce l f acc with
  | Ok acc' => reduce l' f acc'
  | Err e => Err e
  end.
Proof.
  revert acc. induction l as [| a l IH]; intros acc; simpl; [reflexivity |].
  destruct (f acc a); [apply IH | reflexivity].
Qed.

(** X4.  Counting composes over concatenation: when the first part of a
    roll counts to [s], the whole roll counts as its second part does with
    [s] as autosuccesses (and fails as it does). *)
Theorem countSuccesses_app (l l' : list jsval) (cfg : countConfig) (s : Z) :
  countSuccesses (Arr l) cfg = Ok s ->
  countSuccesses (Arr (l ++ l')) cfg =
  countSuccesses (Arr l') (withAutosuccesses cfg s).
Proof.
  destruct cfg as [t d a]. unfold countSuccesses, withAutosuccesses.
  cbn [cc_targetNumber cc_double cc_autosuccesses isUndefinedArg isNumberArg
       isArray negb andb orb toArray orElse].
  destruct (orDefault t (JNum 7)) as [| | b | tn | str]; try discriminate.
  destruct (orDefault d (JNum 10)) as [| | b | dbl | str]; try discriminate.
  intros H. rewrite reduce_app, H. reflexivity.
Qed.

(** The dice 7, 10 and then 3, 8 under the default configuration. *)
Lemma countSuccesses_app_witness :
  countSuccesses (Arr [JNum 7; JNum 10])
    {| cc_targetNumber := JUndefined; cc_double := JUndefined;
       cc_autosuccesses := None |} = Ok 3 /\
  countSuccesses (Arr ([JNum 7; JNum 10] ++ [JNum 3; JNum 8]))
    {| cc_targetNumber := JUndefined; cc_double := JUndefined;
       cc_autosuccesses := None |} =
  countSuccesses (Arr [JNum 3; JNum 8])
    (withAutosuccesses
       {| cc_targetNumber := JUndefined; cc_double := JUndefined;
          cc_autosuccesses := None |} 3).
Proof.
  split; [reflexivity |].
  apply (countSuccesses_app [JNum 7; JNum 10] [JNum 3; JNum 8]). reflexivity.
Defined.

(** Higher thresholds and a lower accumulator give a lower total, the
    rounding of each addition being monotone. *)
Lemma reduce_antitone (tn tn' dbl dbl' : Z) (faces : list Z) :
  tn <= tn' -> dbl <= dbl' ->
  Forall (fun r => 0 < r <= 10) faces ->
  forall acc acc',
    acc' <= acc ->
    exists s s',
      reduce (map JNum faces) (tally tn dbl) acc = Ok s /\
      reduce (map JNum faces) (tally tn' dbl') acc' = Ok s' /\
      s' <= s.
Proof.
  intros Ht Hd. induction 1 as [| r faces Hr _ IH]; intros acc acc' Hacc;
    cbn [map reduce].
  - exists acc, acc'. auto.
  - rewrite !(tally_valid _ _ _ _ Hr). apply IH.
    apply jsAdd_mono; [exact Hacc | apply contribution_antitone; assumption].
Qed.

(** X5.  Raising the target number or the double threshold never raises
    the total: on the same valid dice and autosuccesses, higher thresholds
    count at most as many successes. *)
Theorem countSuccesses_antitone (faces : list Z) (tn tn' dbl dbl' auto : Z) :
  Forall (fun r => 0 < r <= 10) faces ->
  tn <= tn' ->
  dbl <= dbl' ->
  exists s s',
    countSuccesses (Arr (map JNum faces))
      {| cc_targetNumber := JNum tn; cc_double := JNum dbl;
         cc_autosuccesses := Some auto |} = Ok s /\
    countSuccesses (Arr (map JNum faces))
      {| cc_targetNumber := JNum tn'; cc_double := JNum dbl';
         cc_autosuccesses := Some auto |} = Ok s' /\
    s' <= s.
Proof.
  intros Hf Ht Hd. rewrite !countSuccesses_numeric. cbn [orElse].
  apply (reduce_antitone tn tn' dbl dbl' faces Ht Hd Hf). lia.
Qed.

(** Target number 6 against 7, double threshold 9 against 10. *)
Lemma countSuccesses_antitone_witness :
  Forall (fun r => 0 < r <= 10) [6; 9; 10; 2] /\ 6 <= 7 /\ 9 <= 10 /\
  exists s s',
    countSuccesses (Arr (map JNum [6; 9; 10; 2]))
      {| cc_targetNumber := JNum 6; cc_double := JNum 9;
         cc_autosuccesses := Some 0 |} = Ok s /\
    countSuccesses (Arr (map JNum [6; 9; 10; 2]))
      {| cc_targetNumber := JNum 7; cc_double := JNum 10;
         cc_autosuccesses := Some 0 |} = Ok s' /\
    s' <= s.
Proof.
  assert (H : Forall (fun r => 0 < r <= 10) [6; 9; 10; 2])
    by (repeat constructor; lia).
  assert (H1 : 6 <= 7) by lia. assert (H2 : 9 <= 10) by lia.
  split; [exact H | split; [exact H1 | split; [exact H2 |]]].
  apply (countSuccesses_antitone [6; 9; 10; 2] 6 7 9 10 0 H H1 H2).
Defined.


(** X7.  With numeric thresholds, the first element the counter refuses
    decides the error: after any number of valid faces, an element that is
    not a number gives the not-a-number error and a number outside (0, 10]
    gives the out-of-range error, whatever follows it. *)
Theorem countSuccesses_first_bad_face (faces : list Z) (v : jsval)
        (rest : list jsval) (tn dbl : Z) (a : option Z) :
  Forall (fun r => 0 < r <= 10) faces ->
  bad_face v = true ->
  countSuccesses (Arr (map JNum faces ++ v :: rest))
    {| cc_targetNumber := JNum tn; cc_double := JNum dbl;
       cc_autosuccesses := a |} =
  Err (if isNumber v then EOutOfRange else ENotANumber).
Proof.
  intros Hf Hv. rewrite countSuccesses_numeric, reduce_app.
  destruct (reduce_faces_ok tn dbl faces Hf (orElse a 0)) as [total ->].
  cbn [reduce].
  destruct v as [| | b | n | s]; try reflexivity.
  cbn [tally isNumber]. cbn [bad_face] in Hv. rewrite Hv. reflexivity.
Qed.

(** An 11 after two valid dice and before a string. *)
Lemma countSuccesses_first_bad_face_witness :
  Forall (fun r => 0 < r <= 10) [7; 3] /\
  bad_face (JNum 11) = true /\
  countSuccesses (Arr (map JNum [7; 3] ++ JNum 11 :: [JStr "x"]))
    {| cc_targetNumber := JNum 7; cc_double := JNum 10;
       cc_autosuccesses := None |} =
  Err (if isNumber (JNum 11) then EOutOfRange else ENotANumber).
Proof.
  assert (H : Forall (fun r => 0 < r <= 10) [7; 3])
    by (repeat constructor; lia).
  split; [exact H | split; [reflexivity |]].
  apply (countSuccesses_first_bad_face [7; 3] (JNum 11) [JStr "x"] 7 10 None H).
  reflexivity.
Defined.

(** ** The pool *)

Lemma bind_Ret {A B} (m : M A) (k : A -> M B) (c c' : nat) (a : A) :
  m c = (Ret a, c') -> bind m k c = k a c'.
Proof. unfold bind. intros ->. reflexivity. Qed.

Lemma bind_Throw {A B} (m : M A) (k : A -> M B) (c c' : nat) (e : error) :
  m c = (Throw e, c') -> bind m k c = (Throw e, c').
Proof. unfold bind. intros ->. reflexivity. Qed.

Lemma bind_Ret_inv {A B} (m : M A) (k : A -> M B) (c c' : nat) (b : B) :
  bind m k c = (Ret b, c') ->
  exists a c1, m c = (Ret a, c1) /\ k a c1 = (Ret b, c').
Proof.
  unfold bind. destruct (m c) as [[a | e |] c1]; try discriminate. eauto.
Qed.

(** Run the first computation of a [bind] whose outcome [H] gives. *)
Ltac bind_step H := erewrite bind_Ret; [| exact H].

(** [n] calls of [d10] that all returned drew the next [n] indices, all
    inside the sampled range. *)
Lemma baseTimes_d10_inv (src : nat -> nat) :
  forall (n c : nat) (l : list Z) (c' : nat),
    baseTimes n (d10 src) c = (Ret l, c') ->
    c' = (c + n)%nat /\ l = poolFaces src c n /\
    forall k, (c <= k < c + n)%nat -> (src k < 9)%nat.
Proof.
  unfold poolFaces.
  induction n as [| n IH]; intros c l c' H; cbn [baseTimes] in H.
  - injection H as <- <-. repeat split; [lia | intros; lia].
  - apply bind_Ret_inv in H. destruct H as (x & c1 & Hd & H1).
    apply bind_Ret_inv in H1. destruct H1 as (xs & c2 & Ht & H2).
    injection H2 as <- <-. rewrite d10_eq in Hd.
    destruct (Nat.ltb_spec (src c) 9) as [Hlt | Hge]; [| discriminate].
    injection Hd as <- <-.
    destruct (IH _ _ _ Ht) as (-> & -> & Hk).
    repeat split; [lia |].
    intros k Hk'. destruct (Nat.eq_dec k c) as [-> | Hne]; [exact Hlt |].
    apply Hk. lia.
Qed.

Lemma baseTimes_d10_run (src : nat -> nat) :
  forall (n c : nat),
    (forall k, (c <= k < c + n)%nat -> (src k < 9)%nat) ->
    baseTimes n (d10 src) c = (Ret (poolFaces src c n), (c + n)%nat).
Proof.
  unfold poolFaces.
  induction n as [| n IH]; intros c H; cbn [baseTimes].
  - unfold ret. rewrite Nat.add_0_r. reflexivity.
  - assert (H0 : (src c <? 9)%nat = true) by (apply Nat.ltb_lt, H; lia).
    erewrite bind_Ret; [| rewrite d10_eq, H0; reflexivity].
    erewrite bind_Ret; [| apply IH; intros k Hk; apply H; lia].
    unfold ret. cbn [seq map]. f_equal. lia.
Qed.

(** Calls of [d10] return or throw the nil error; they never run on. *)
Lemma baseTimes_d10_total (src : nat -> nat) :
  forall (n c : nat),
    (exists l c', baseTimes n (d10 src) c = (Ret l, c')) \/
    (exists c', baseTimes n (d10 src) c = (Throw EDiceNil, c')).
Proof.
  induction n as [| n IH]; intros c.
  - left. eexists; eexists. reflexivity.
  - assert (E : baseTimes (S n) (d10 src) c =
                if (src c <? 9)%nat
                then bind (baseTimes n (d10 src))
                       (fun xs => ret ((Z.of_nat (src c) + 1) :: xs)) (S c)
                else (Throw EDiceNil, S c)).
    { cbn [baseTimes]. unfold bind at 1. rewrite d10_eq.
      destruct (src c <? 9)%nat; reflexivity. }
    rewrite E. destruct (src c <? 9)%nat;
      [| right; eexists; reflexivity].
    unfold bind.
    destruct (IH (S c)) as [(l & c' & ->) | (c' & ->)];
      [left | right]; eexists; try eexists; reflexivity.
Qed.

Lemma poolFaces_length (src : nat -> nat) (c n : nat) :
  List.length (poolFaces src c n) = n.
Proof. unfold poolFaces. rewrite length_map, length_seq. reflexivity. Qed.

Lemma poolFaces_faces (src : nat -> nat) (c n : nat) :
  (forall k, (c <= k < c + n)%nat -> (src k < 9)%nat) ->
  Forall (fun f => 1 <= f <= 9) (poolFaces src c n).
Proof.
  intros Hk. apply Forall_forall. intros f Hf. unfold poolFaces in Hf.
  apply in_map_iff in Hf. destruct Hf as [k [<- Hin]].
  apply in_seq in Hin. specialize (Hk k Hin). lia.
Qed.

(** Up to lodash's array length, [rollDice] is [numDice] calls of [d10]. *)
Lemma rollDice_run (src : nat -> nat) (n : Z) (c : nat) :
  0 <= n <= MAX_ARRAY_LENGTH ->
  (forall k, (c <= k < c + Z.to_nat n)%nat -> (src k < 9)%nat) ->
  rollDice src (JNum n) c =
  (Ret (poolFaces src c (Z.to_nat n)), (c + Z.to_nat n)%nat).
Proof.
  unfold MAX_ARRAY_LENGTH. intros Hn Hk. cbn [rollDice].
  destruct (Z.ltb_spec n 0); [lia |]. unfold times.
  destruct (Z.ltb_spec n 1).
  - replace n with 0 by lia. cbn [orb]. unfold ret, poolFaces. simpl.
    rewrite Nat.add_0_r. reflexivity.
  - destruct (Z.gtb_spec n MAX_SAFE_INTEGER);
      [unfold MAX_SAFE_INTEGER in *; lia |].
    cbn [orb]. unfold MAX_ARRAY_LENGTH.
    replace (Z.min n 4294967295) with n by lia.
    replace (Z.to_nat (n - 4294967295 - (4294967295 + 1))) with 0%nat by lia.
    erewrite bind_Ret; [| apply baseTimes_d10_run, Hk]. reflexivity.
Qed.

(** Whatever pool [rollDice] returns holds faces between 1 and 9. *)
Lemma rollDice_faces (src : nat -> nat) (numDice0 : jsval) (c : nat)
      (pool : list Z) (c' : nat) :
  rollDice src numDice0 c = (Ret pool, c') ->
  Forall (fun f => 1 <= f <= 9) pool.
Proof.
  destruct numDice0 as [| | b | n | s]; try discriminate. cbn [rollDice].
  destruct (n <? 0); [discriminate |]. unfold times.
  destruct ((n <? 1) || (n >? MAX_SAFE_INTEGER)).
  - intros H. injection H as <- _. constructor.
  - intros H. apply bind_Ret_inv in H. destruct H as (l & c1 & Hl & H1).
    apply bind_Ret_inv in H1. destruct H1 as (d & c2 & _ & H2).
    injection H2 as <- _. apply baseTimes_d10_inv in Hl.
    destruct Hl as (_ & -> & Hk). apply poolFaces_faces, Hk.
Qed.

(** [rollDice] returns a pool or throws one of two errors. *)
Lemma rollDice_total (src : nat -> nat) (numDice0 : jsval) (c : nat) :
  (exists pool c', rollDice src numDice0 c = (Ret pool, c')) \/
  (exists e c', rollDice src numDice0 c = (Throw e, c') /\
                (e = ENumDice \/ e = EDiceNil)).
Proof.
  destruct numDice0 as [| | b | n | s];
    try (right; exists ENumDice, c; split; [reflexivity | auto]).
  cbn [rollDice]. destruct (n <? 0);
    [right; exists ENumDice, c; split; [reflexivity | auto] |].
  unfold times. destruct ((n <? 1) || (n >? MAX_SAFE_INTEGER));
    [left; eexists; eexists; reflexivity |].
  destruct (baseTimes_d10_total src (Z.to_nat (Z.min n MAX_ARRAY_LENGTH)) c)
    as [(l & c1 & H1) | (c1 & H1)].
  - destruct (baseTimes_d10_total src
                (Z.to_nat (n - MAX_ARRAY_LENGTH - (MAX_ARRAY_LENGTH + 1))) c1)
      as [(l' & c2 & H2) | (c2 & H2)].
    + left. exists l, c2. bind_step H1. bind_step H2. reflexivity.
    + right. exists EDiceNil, c2. split; [| auto].
      bind_step H1. apply bind_Throw. exact H2.
  - right. exists EDiceNil, c1. split; [apply bind_Throw; exact H1 | auto].
Qed.

(** X1.  [rollDice] refuses a dice count that is not a number or is
    negative with the InvalidArgument error of line 64, before any die is
    drawn. *)
Theorem rollDice_rejects_bad_count (src : nat -> nat) (numDice : jsval)
        (c : nat) :
  badNumDice numDice = true ->
  rollDice src numDice c = (Throw ENumDice, c) /\
  kind_of ENumDice = InvalidArgument.
Proof.
  intros H. split; [| reflexivity].
  destruct numDice as [| | b | n | s]; try reflexivity.
  cbn [rollDice]. cbn [badNumDice] in H. rewrite H. reflexivity.
Qed.

(** A count of -1. *)
Lemma rollDice_rejects_bad_count_witness :
  badNumDice (JNum (-1)) = true /\
  rollDice (constSrc 0) (JNum (-1)) 0%nat = (Throw ENumDice, 0%nat) /\
  kind_of ENumDice = InvalidArgument.
Proof.
  split; [reflexivity |].
  apply (rollDice_rejects_bad_count (constSrc 0) (JNum (-1)) 0%nat).
  reflexivity.
Defined.

(** X2.  For a count [n] from 0 to lodash's array length 2^32 - 1 and
    draws inside the sampled range, [rollDice] returns exactly [n] dice,
    each a face between 1 and 9, the i-th being the i-th draw, and it
    consumes exactly [n] draws; a count of zero gives the empty pool. *)
Theorem rollDice_draws_pool (src : nat -> nat) (n : Z) (c : nat) :
  0 <= n <= MAX_ARRAY_LENGTH ->
  (forall k, (c <= k < c + Z.to_nat n)%nat -> (src k < 9)%nat) ->
  exists pool,
    rollDice src (JNum n) c = (Ret pool, (c + Z.to_nat n)%nat) /\
    Z.of_nat (List.length pool) = n /\
    Forall (fun f => 1 <= f <= 9) pool /\
    (forall i, (i < Z.to_nat n)%nat ->
               nth_error pool i = Some (Z.of_nat (src (c + i)%nat) + 1)) /\
    (n = 0 -> pool = []).
Proof.
  intros Hn Hk. exists (poolFaces src c (Z.to_nat n)).
  split; [apply rollDice_run; assumption |].
  split; [rewrite poolFaces_length; lia |].
  split; [apply poolFaces_faces, Hk | split].
  - intros i Hi. unfold poolFaces.
    rewrite nth_error_map, nth_error_seq.
    apply Nat.ltb_lt in Hi. rewrite Hi. reflexivity.
  - intros ->. reflexivity.
Qed.

(** Three dice drawn as the indices 6, 0 and 8: the pool 7, 1, 9. *)
Lemma rollDice_draws_pool_witness :
  0 <= 3 <= MAX_ARRAY_LENGTH /\
  (forall k, (0 <= k < 0 + Z.to_nat 3)%nat ->
             (listSrc [6%nat; 0%nat; 8%nat] k < 9)%nat) /\
  exists pool,
    rollDice (listSrc [6%nat; 0%nat; 8%nat]) (JNum 3) 0%nat =
    (Ret pool, (0 + Z.to_nat 3)%nat) /\
    Z.of_nat (List.length pool) = 3 /\
    Forall (fun f => 1 <= f <= 9) pool /\
    (forall i, (i < Z.to_nat 3)%nat ->
               nth_error pool i =
               Some (Z.of_nat (listSrc [6%nat; 0%nat; 8%nat] (0 + i)%nat) + 1)) /\
    (3 = 0 -> pool = []).
Proof.
  assert (Hn : 0 <= 3 <= MAX_ARRAY_LENGTH) by (unfold MAX_ARRAY_LENGTH; lia).
  assert (Hk : forall k, (0 <= k < 0 + Z.to_nat 3)%nat ->
                         (listSrc [6%nat; 0%nat; 8%nat] k < 9)%nat).
  { intros k Hk. unfold listSrc.
    destruct k as [| [| [| k]]]; simpl in *; lia. }
  split; [exact Hn | split; [exact Hk |]].
  apply (rollDice_draws_pool (listSrc [6%nat; 0%nat; 8%nat]) 3 0%nat Hn Hk).
Defined.

(** X23.  Above [Number.MAX_SAFE_INTEGER] the count is accepted but no die
    is rolled: [times] gives up and [rollDice] returns the empty pool
    without a draw. *)
Theorem rollDice_beyond_safe_count (src : nat -> nat) (n : Z) (c : nat) :
  MAX_SAFE_INTEGER < n ->
  rollDice src (JNum n) c = (Ret [], c).
Proof.
  unfold MAX_SAFE_INTEGER. intros Hn. cbn [rollDice].
  destruct (Z.ltb_spec n 0); [lia |]. unfold times.
  destruct (Z.gtb_spec n MAX_SAFE_INTEGER);
    [| unfold MAX_SAFE_INTEGER in *; lia].
  rewrite orb_true_r. reflexivity.
Qed.

(** A count of 2^53. *)
Lemma rollDice_beyond_safe_count_witness :
  MAX_SAFE_INTEGER < 9007199254740992 /\
  rollDice (constSrc 0) (JNum 9007199254740992) 0%nat = (Ret [], 0%nat).
Proof.
  assert (H : MAX_SAFE_INTEGER < 9007199254740992)
    by (unfold MAX_SAFE_INTEGER; lia).
  split; [exact H |].
  apply (rollDice_beyond_safe_count (constSrc 0) 9007199254740992 0%nat H).
Defined.

(** ** Thresholds outside the faces, and counting a pool *)

Lemma sum_contribution_const (tn dbl k : Z) (faces : list Z) :
  Forall (fun r => contribution tn dbl r = k) faces ->
  sumZ (map (contribution tn dbl) faces) = k * Z.of_nat (List.length faces).
Proof.
  induction 1 as [| r faces Hr _ IH]; [simpl; lia |].
  cbn [map sumZ fold_right List.length].
  fold (sumZ (map (contribution tn dbl) faces)). rewrite IH, Hr. lia.
Qed.

(** X21.  Thresholds outside the faces are accepted and degrade, as long
    as the autosuccesses are at least -2^53 and, with two per die added, at
    most 2^53: a target number above 10 counts nothing, so the total is the
    autosuccesses; a target number of 1 or less counts every die, once each
    when the double threshold is above 10 and twice each when it is 1 or
    less. *)
Theorem countSuccesses_thresholds_out_of_range (faces : list Z)
        (tn dbl auto : Z) :
  Forall (fun r => 0 < r <= 10) faces ->
  safeTotal auto (List.length faces) ->
  (10 < tn ->
   countSuccesses (Arr (map JNum faces))
     {| cc_targetNumber := JNum tn; cc_double := JNum dbl;
        cc_autosuccesses := Some auto |} = Ok auto) /\
  (tn <= 1 -> 10 < dbl ->
   countSuccesses (Arr (map JNum faces))
     {| cc_targetNumber := JNum tn; cc_double := JNum dbl;
        cc_autosuccesses := Some auto |} =
   Ok (auto + Z.of_nat (List.length faces))) /\
  (tn <= 1 -> dbl <= 1 ->
   countSuccesses (Arr (map JNum faces))
     {| cc_targetNumber := JNum tn; cc_double := JNum dbl;
        cc_autosuccesses := Some auto |} =
   Ok (auto + 2 * Z.of_nat (List.length faces))).
Proof.
  intros Hf Hs. rewrite countSuccesses_numeric, (reduce_faces _ _ _ Hf _ Hs).
  repeat split; intros; f_equal.
  - rewrite (sum_contribution_const tn dbl 0); [lia |].
    eapply Forall_impl; [| exact Hf]. intros r Hr. cbv beta in Hr.
    apply contribution_cases. lia.
  - rewrite (sum_contribution_const tn dbl 1); [lia |].
    eapply Forall_impl; [| exact Hf]. intros r Hr. cbv beta in Hr.
    apply contribution_cases. lia.
  - rewrite (sum_contribution_const tn dbl 2); [lia |].
    eapply Forall_impl; [| exact Hf]. intros r Hr. cbv beta in Hr.
    apply contribution_cases; lia.
Qed.

(** Three dice against a target number of 11. *)
Lemma countSuccesses_thresholds_out_of_range_witness :
  Forall (fun r => 0 < r <= 10) [1; 10; 7] /\
  safeTotal 4 (List.length [1; 10; 7]) /\
  (10 < 11 ->
   countSuccesses (Arr (map JNum [1; 10; 7]))
     {| cc_targetNumber := JNum 11; cc_double := JNum 0;
        cc_autosuccesses := Some 4 |} = Ok 4).
Proof.
  assert (H : Forall (fun r => 0 < r <= 10) [1; 10; 7])
    by (repeat constructor; lia).
  assert (Hs : safeTotal 4 (List.length [1; 10; 7]))
    by (unfold safeTotal; simpl; lia).
  split; [exact H | split; [exact Hs |]].
  exact (proj1 (countSuccesses_thresholds_out_of_range [1; 10; 7] 11 0 4 H Hs)).
Defined.

Lemma sum_contribution_no_double (tn dbl : Z) (faces : list Z) :
  Forall (fun r => r < dbl) faces ->
  sumZ (map (contribution tn dbl) faces) =
  Z.of_nat (List.length (filter (fun r => tn <=? r) faces)).
Proof.
  induction 1 as [| r faces Hr _ IH]; [reflexivity |].
  cbn [map sumZ fold_right filter].
  fold (sumZ (map (contribution tn dbl) faces)). rewrite IH.
  unfold contribution.
  destruct (Z.ltb_spec r tn), (Z.leb_spec tn r); try lia.
  destruct (Z.ltb_spec r dbl); [| lia]. cbn [List.length]. lia.
Qed.

(** X22.  Counting a pool that [rollDice] returned never fails on a die,
    and since no die of a pool shows more than 9, a double threshold of 10
    (the default) or more never scores two: as long as the autosuccesses
    are at least -2^53 and, with two per die added, at most 2^53, the total
    is the autosuccesses plus the number of dice that reach the target
    number. *)
Theorem countSuccesses_of_pool (src : nat -> nat) (numDice0 : jsval)
        (c : nat) (pool : list Z) (c' : nat) (tn dbl auto : Z) :
  rollDice src numDice0 c = (Ret pool, c') ->
  10 <= dbl ->
  safeTotal auto (List.length pool) ->
  countSuccesses (Arr (map JNum pool))
    {| cc_targetNumber := JNum tn; cc_double := JNum dbl;
       cc_autosuccesses := Some auto |} =
  Ok (auto + Z.of_nat (List.length (filter (fun r => tn <=? r) pool))).
Proof.
  intros H Hd Hs. apply rollDice_faces in H.
  rewrite countSuccesses_numeric, reduce_faces.
  - cbn [orElse]. rewrite sum_contribution_no_double; [reflexivity |].
    eapply Forall_impl; [| exact H]. intros r Hr. cbv beta in Hr. lia.
  - eapply Forall_impl; [| exact H]. intros r Hr. cbv beta in Hr. lia.
  - exact Hs.
Qed.

(** The pool 7, 1, 9 under the default thresholds: two successes. *)
Lemma countSuccesses_of_pool_witness :
  rollDice (listSrc [6%nat; 0%nat; 8%nat]) (JNum 3) 0%nat =
  (Ret [7; 1; 9], 3%nat) /\
  10 <= 10 /\
  safeTotal 0 (List.length [7; 1; 9]) /\
  countSuccesses (Arr (map JNum [7; 1; 9]))
    {| cc_targetNumber := JNum 7; cc_double := JNum 10;
       cc_autosuccesses := Some 0 |} =
  Ok (0 + Z.of_nat (List.length (filter (fun r => 7 <=? r) [7; 1; 9]))).
Proof.
  assert (Hd : 10 <= 10) by lia.
  assert (Hs : safeTotal 0 (List.length [7; 1; 9]))
    by (unfold safeTotal; simpl; lia).
  split; [reflexivity | split; [exact Hd | split; [exact Hs |]]].
  apply (countSuccesses_of_pool (listSrc [6%nat; 0%nat; 8%nat]) (JNum 3) 0%nat
           [7; 1; 9] 3%nat 7 10 0); [reflexivity | exact Hd | exact Hs].
Defined.

(** ** The reroll engine *)

(** Every call of [reroll] ends in a throw, at one of three places: the
    check of the roll, the check that the reroll array is an array, or
    line 86.  Nothing behind line 86 runs. *)
Lemma reroll_outcome (src : nat -> nat) (fuel : nat) (roll : jsarg)
      (cfg : rerollConfig) (c : nat) :
  reroll src fuel roll cfg c =
  (Throw (rerollError roll (rr_rerollArray cfg)), c).
Proof.
  unfold rerollError.
  destruct fuel; cbn [reroll];
    (destruct (negb (isNumberArg roll) && negb (isArray roll));
       [reflexivity |]);
    destruct (rr_rerollArray cfg) as [v | ra]; reflexivity.
Qed.

(** C6 (as the code has it).  With a reroll array that holds every face
    1..10, [reroll] does fail before any die is drawn, but not with the
    error of the all-faces test, which it never reaches: for a roll that is
    a number or an array the call ends at line 86 with a ReferenceError,
    which is not an InvalidArgument error; only a roll that is neither gets
    the InvalidArgument error of the first check. *)
Theorem reroll_all_faces_reference_error (src : nat -> nat) (fuel : nat)
        (roll : jsarg) (ra : list jsval) (append cascade : option bool)
        (c : nat) :
  (forall f, 1 <= f <= 10 -> In (JNum f) ra) ->
  (isNumberArg roll || isArray roll = true ->
   reroll src fuel roll
     {| rr_rerollArray := Arr ra; rr_append := append;
        rr_cascade := cascade |} c = (Throw EReference, c)) /\
  (isNumberArg roll || isArray roll = false ->
   reroll src fuel roll
     {| rr_rerollArray := Arr ra; rr_append := append;
        rr_cascade := cascade |} c = (Throw ERollRequired, c)) /\
  kind_of EReference = LanguageError /\
  kind_of ERollRequired = InvalidArgument.
Proof.
  intros _. rewrite reroll_outcome. unfold rerollError.
  rewrite <- negb_orb. cbn [rr_rerollArray].
  repeat split; intros ->; reflexivity.
Qed.

(** The roll 1, 2, 3 against the reroll array 1..10. *)
Lemma reroll_all_faces_reference_error_witness :
  (forall f, 1 <= f <= 10 -> In (JNum f) (map JNum (range 1 11))) /\
  reroll (constSrc 0) 5 (Arr [JNum 1; JNum 2; JNum 3])
    {| rr_rerollArray := Arr (map JNum (range 1 11)); rr_append := None;
       rr_cascade := None |} 0%nat = (Throw EReference, 0%nat).
Proof.
  assert (H : forall f, 1 <= f <= 10 -> In (JNum f) (map JNum (range 1 11))).
  { intros f Hf. apply in_map. simpl.
    assert (f = 1 \/ f = 2 \/ f = 3 \/ f = 4 \/ f = 5 \/ f = 6 \/ f = 7 \/
            f = 8 \/ f = 9 \/ f = 10) by lia.
    intuition. }
  split; [exact H |].
  apply (proj1 (reroll_all_faces_reference_error (constSrc 0) 5
                  (Arr [JNum 1; JNum 2; JNum 3]) _ None None 0%nat H)).
  reflexivity.
Defined.

(** C8 (as the code has it).  [reroll] never returns a sequence: whatever
    the roll, the configuration and the draws, it throws, without drawing a
    die, the error of the roll check, of the array check or the
    ReferenceError of line 86.  In particular
    [reroll([5], { rerollArray: [1], append: true })] throws the
    ReferenceError instead of returning [[5]]. *)
Theorem reroll_never_returns :
  (forall src fuel roll cfg c,
     exists e,
       reroll src fuel roll cfg c = (Throw e, c) /\
       (e = ERollRequired \/ e = ERerollNotArray \/ e = EReference)) /\
  (forall src fuel c,
     reroll src fuel (Arr [JNum 5])
       {| rr_rerollArray := Arr [JNum 1]; rr_append := Some true;
          rr_cascade := None |} c = (Throw EReference, c)).
Proof.
  split.
  - intros src fuel roll cfg c. rewrite reroll_outcome. eexists.
    split; [reflexivity |]. unfold rerollError.
    destruct (negb (isNumberArg roll) && negb (isArray roll)); auto.
    destruct (rr_rerollArray cfg); auto.
  - intros src fuel c. apply reroll_outcome.
Qed.



(** X8.  The order of what stops [reroll], all before a die is drawn: a
    roll that is neither a number nor an array is reported first, whatever
    the configuration; then a reroll array that is not an array; then, for
    every array (empty, with an element that is not a number, or holding
    every face), the ReferenceError of line 86. *)
Theorem reroll_check_order (src : nat -> nat) (fuel : nat) (c : nat) :
  (forall roll cfg,
     isNumberArg roll || isArray roll = false ->
     reroll src fuel roll cfg c = (Throw ERollRequired, c)) /\
  (forall roll v append cascade,
     isNumberArg roll || isArray roll = true ->
     reroll src fuel roll
       {| rr_rerollArray := Scalar v; rr_append := append;
          rr_cascade := cascade |} c = (Throw ERerollNotArray, c)) /\
  (forall roll ra append cascade,
     isNumberArg roll || isArray roll = true ->
     reroll src fuel roll
       {| rr_rerollArray := Arr ra; rr_append := append;
          rr_cascade := cascade |} c = (Throw EReference, c)).
Proof.
  split; [| split]; intros; rewrite reroll_outcome; unfold rerollError;
    rewrite <- negb_orb; cbn [rr_rerollArray];
    match goal with H : _ || _ = _ |- _ => rewrite H end; reflexivity.
Qed.

(** ** The orchestrator *)

(** Once the pool is drawn, [roll] ends with the error of [reroll]. *)
Lemma roll_after_pool (src : nat -> nat) (fuel : nat) (numDice0 : jsval)
      (config : option rollConfig) (c : nat) (pool : list Z) (c1 : nat) :
  rollDice src numDice0 c = (Ret pool, c1) ->
  roll src fuel numDice0 config c =
  (Throw (rerollError (Arr (map JNum pool)) (rerollArrayOf config)), c1).
Proof.
  intros H. unfold roll. bind_step H. apply bind_Throw.
  apply reroll_outcome.
Qed.

(** C2 (as the code has it).  [roll] never returns a record, so there is
    no botch flag: whatever the dice count, the configuration and the
    draws, it throws.  The dice count is refused, or a draw finds no face,
    or the pool is drawn and [reroll] throws: the array error when the
    reroll array is not an array, the ReferenceError of line 86
    otherwise. *)
Theorem roll_never_returns (src : nat -> nat) (fuel : nat)
        (numDice0 : jsval) (config : option rollConfig) (c : nat) :
  exists e c',
    roll src fuel numDice0 config c = (Throw e, c') /\
    (e = ENumDice \/ e = EDiceNil \/ e = ERerollNotArray \/ e = EReference).
Proof.
  destruct (rollDice_total src numDice0 c)
    as [(pool & c1 & H) | (e & c1 & H & He)].
  - rewrite (roll_after_pool _ _ _ _ _ _ _ H). eexists; eexists.
    split; [reflexivity |]. unfold rerollError. cbn [isNumberArg isArray negb andb].
    destruct (rerollArrayOf config); auto.
  - exists e, c1. split.
    + unfold roll. apply bind_Throw. exact H.
    + destruct He as [-> | ->]; auto.
Qed.

(** C3 (as the code has it).  For a dice count from 0 to 2^32 - 1, draws
    inside the sampled range and a reroll array that is an array or is
    omitted, [roll] draws the pool and then throws the ReferenceError of
    line 86: [countSuccesses] is never called and no successes are
    reported, whatever the thresholds and the autosuccesses. *)
Theorem roll_throws_before_counting (src : nat -> nat) (fuel : nat) (n : Z)
        (config : option rollConfig) (c : nat) :
  0 <= n <= MAX_ARRAY_LENGTH ->
  (forall k, (c <= k < c + Z.to_nat n)%nat -> (src k < 9)%nat) ->
  isArray (rerollArrayOf config) = true ->
  roll src fuel (JNum n) config c = (Throw EReference, (c + Z.to_nat n)%nat).
Proof.
  intros Hn Hk Ha.
  rewrite (roll_after_pool _ _ _ _ _ _ _ (rollDice_run src n c Hn Hk)).
  unfold rerollError. cbn [isNumberArg isArray negb andb].
  destruct (rerollArrayOf config); [discriminate | reflexivity].
Qed.

(** Five dice under target number 7, double threshold 10, no reroll face
    and no autosuccess. *)
Lemma roll_throws_before_counting_witness :
  0 <= 5 <= MAX_ARRAY_LENGTH /\
  (forall k, (0 <= k < 0 + Z.to_nat 5)%nat ->
             (listSrc [6%nat; 7%nat; 8%nat; 8%nat; 2%nat] k < 9)%nat) /\
  isArray
    (rerollArrayOf
       (Some {| rc_targetNumber := JNum 7; rc_double := JNum 10;
                rc_rerollArray := Arr []; rc_cascade := None;
                rc_autosuccesses := Some 0 |})) = true /\
  roll (listSrc [6%nat; 7%nat; 8%nat; 8%nat; 2%nat]) 3 (JNum 5)
    (Some {| rc_targetNumber := JNum 7; rc_double := JNum 10;
             rc_rerollArray := Arr []; rc_cascade := None;
             rc_autosuccesses := Some 0 |}) 0%nat =
  (Throw EReference, (0 + Z.to_nat 5)%nat).
Proof.
  assert (Hn : 0 <= 5 <= MAX_ARRAY_LENGTH) by (unfold MAX_ARRAY_LENGTH; lia).
  assert (Hk : forall k, (0 <= k < 0 + Z.to_nat 5)%nat ->
                 (listSrc [6%nat; 7%nat; 8%nat; 8%nat; 2%nat] k < 9)%nat).
  { intros k Hk. unfold listSrc.
    destruct k as [| [| [| [| [| k]]]]]; simpl in *; lia. }
  split; [exact Hn | split; [exact Hk | split; [reflexivity |]]].
  apply (roll_throws_before_counting _ 3 5 _ 0%nat Hn Hk). reflexivity.
Defined.

(** X15.  [roll] refuses a dice count that is not a number or is negative
    with the error of [rollDice], under every configuration (valid or not)
    and before any die is drawn. *)
Theorem roll_rejects_bad_count (src : nat -> nat) (fuel : nat)
        (numDice : jsval) (config : option rollConfig) (c : nat) :
  badNumDice numDice = true ->
  roll src fuel numDice config c = (Throw ENumDice, c).
Proof.
  intros H. unfold roll. apply bind_Throw.
  destruct numDice as [| | b | n | s]; try reflexivity.
  cbn [rollDice]. cbn [badNumDice] in H. rewrite H. reflexivity.
Qed.

(** A count of -2 with a reroll array that holds every face. *)
Lemma roll_rejects_bad_count_witness :
  badNumDice (JNum (-2)) = true /\
  roll (constSrc 0) 5 (JNum (-2))
    (Some {| rc_targetNumber := JNull; rc_double := JUndefined;
             rc_rerollArray := Arr (map JNum (range 1 11));
             rc_cascade := None; rc_autosuccesses := None |}) 0%nat =
  (Throw ENumDice, 0%nat).
Proof.
  split; [reflexivity |].
  apply (roll_rejects_bad_count (constSrc 0) 5 (JNum (-2))). reflexivity.
Defined.

(** X19.  [roll] draws the pool before the reroll array is looked at: with
    a dice count from 0 to 2^32 - 1 and a reroll array that is given and is
    not an array, the InvalidArgument error of the array check is thrown
    only after the [numDice] dice of the pool have been drawn. *)
Theorem roll_checks_after_drawing (src : nat -> nat) (fuel : nat) (n : Z)
        (cfg : rollConfig) (c : nat) (v : jsval) :
  0 <= n <= MAX_ARRAY_LENGTH ->
  (forall k, (c <= k < c + Z.to_nat n)%nat -> (src k < 9)%nat) ->
  rc_rerollArray cfg = Scalar v ->
  v <> JUndefined ->
  roll src fuel (JNum n) (Some cfg) c =
  (Throw ERerollNotArray, (c + Z.to_nat n)%nat) /\
  kind_of ERerollNotArray = InvalidArgument.
Proof.
  intros Hn Hk Hv Hu. split; [| reflexivity].
  rewrite (roll_after_pool _ _ _ _ _ _ _ (rollDice_run src n c Hn Hk)).
  unfold rerollError, rerollArrayOf. cbn [isNumberArg isArray negb andb orElse].
  rewrite Hv. destruct v; try reflexivity. congruence.
Qed.

(** Two dice asked for with the number 1 as reroll array. *)
Lemma roll_checks_after_drawing_witness :
  0 <= 2 <= MAX_ARRAY_LENGTH /\
  (forall k, (0 <= k < 0 + Z.to_nat 2)%nat -> (constSrc 5 k < 9)%nat) /\
  roll (constSrc 5) 0 (JNum 2)
    (Some {| rc_targetNumber := JUndefined; rc_double := JUndefined;
             rc_rerollArray := Scalar (JNum 1);
             rc_cascade := None; rc_autosuccesses := None |}) 0%nat =
  (Throw ERerollNotArray, (0 + Z.to_nat 2)%nat) /\
  kind_of ERerollNotArray = InvalidArgument.
Proof.
  assert (Hn : 0 <= 2 <= MAX_ARRAY_LENGTH) by (unfold MAX_ARRAY_LENGTH; lia).
  assert (Hk : forall k, (0 <= k < 0 + Z.to_nat 2)%nat ->
                         (constSrc 5 k < 9)%nat)
    by (intros k _; unfold constSrc; lia).
  split; [exact Hn | split; [exact Hk |]].
  apply (roll_checks_after_drawing (constSrc 5) 0 2 _ 0%nat (JNum 1) Hn Hk);
    [reflexivity | discriminate].
Defined.
